(** * superpipe.steps.serp: the SERP enrichment step

    A shallow embedding of [src/superpipe/steps/serp.py] and of the
    contracts it relies on ([Step], [StepResult], [with_statistics]),
    followed by the properties of [SERPEnrichmentStep]. *)

From Stdlib Require Import ZArith String Ascii List Lia FunctionalExtensionality.
From stdpp Require Import base option gmap strings list fin_maps.

Local Open Scope string_scope.
Local Open Scope Z_scope.

(** ** Python data *)

(** Exception classes that occur in this module and its collaborators. *)
Inductive exn_class :=
  | AttributeError | KeyError | TypeError | ValueError | RuntimeError
  | ConnectionError | Timeout.

(** [type(e).__name__] *)
Definition class_name (c : exn_class) : string :=
  match c with
  | AttributeError => "AttributeError"
  | KeyError => "KeyError"
  | TypeError => "TypeError"
  | ValueError => "ValueError"
  | RuntimeError => "RuntimeError"
  | ConnectionError => "ConnectionError"
  | Timeout => "Timeout"
  end.

(** An exception object: its class and [str(e)]. *)
Record exn := Exn { exn_type : exn_class; exn_str : string }.

(** Plain Python values: what a row cell, a produced field or a statistics
    entry can hold. [VExc e] is the exception object [e] used as a value. *)
Inductive value :=
  | VNone
  | VBool (b : bool)
  | VNum (n : Z)
  | VStr (s : string)
  | VExc (e : exn).

(** The outcome of evaluating a Python expression. *)
Inductive outcome (A : Type) :=
  | Returns (a : A)
  | Raises (e : exn).
Arguments Returns {A} a.
Arguments Raises {A} e.

(** A callable object: what calling it does, and its [__name__] attribute
    when it has one (a [def] or a [lambda] has, a [functools.partial] object
    or an instance with [__call__] has not). The callables a step is
    configured with are functions of their argument alone: a call returns a
    value or raises, and touches nothing else. *)
Record callable (A B : Type) := Callable {
  call : A -> outcome B;
  __name__ : option string
}.
Arguments Callable {A B} call __name__.
Arguments call {A B} c x.
Arguments __name__ {A B} c.

(** [row: Union[pd.Series, Dict]] *)
Abbreviation row := (gmap string value).

(** Any object reachable from a step: plain data, or one of the two kinds of
    configured callables. *)
Inductive object :=
  | Data (v : value)
  | PromptFn (f : callable row string)
  | PostprocessFn (f : callable string value).

(** ** The world outside the interpreter *)

Record http_request := HttpRequest {
  req_method : string;
  req_url : string;
  req_headers : list (string * option string);
  req_data : string
}.

Record http_response := HttpResponse {
  status_code : Z;
  text : string
}.

(** [environ] is [os.environ]; [transport r] is what [requests.request] does
    with request [r]: it returns the server's response whatever its status
    code, or raises when no response is obtained; [sent] logs the requests
    issued so far, oldest first; [ticks i] is the [i]-th reading of the
    performance counter and [reads] the number of readings taken. *)
Record world := World {
  environ : gmap string string;
  transport : http_request -> outcome http_response;
  sent : list http_request;
  ticks : nat -> Z;
  reads : nat
}.

(** ** Effectful computations: state passing with exceptions *)

Definition py (A : Type) : Type := world -> outcome A * world.

#[export] Instance py_ret : MRet py :=
  fun A (a : A) w => (Returns a, w).

#[export] Instance py_bind : MBind py :=
  fun A B (k : A -> py B) (m : py A) w =>
    match m w with
    | (Returns a, w') => k a w'
    | (Raises e, w') => (Raises e, w')
    end.

(** A call of a pure callable inside an effectful computation: its outcome,
    the world untouched. *)
Definition lift {A} (o : outcome A) : py A := fun w => (o, w).

(** [try: m / except Exception as e: ...] with the outcome made a value. *)
Definition catch {A} (m : py A) : py (outcome A) :=
  fun w => let '(o, w') := m w in (Returns o, w').

(** ** Library calls used by the module *)

(** The world after one more request has been issued. *)
Definition log_request (r : http_request) (w : world) : world :=
  World (environ w) (transport w) (sent w ++ [r]) (ticks w) (reads w).

(** The world after one more reading of the performance counter. *)
Definition tick (w : world) : world :=
  World (environ w) (transport w) (sent w) (ticks w) (S (reads w)).

(** [os.environ.get(key)] *)
Definition os_environ_get (key : string) : py (option string) :=
  fun w => (Returns (environ w !! key), w).

(** [requests.request(method, url, headers=headers, data=data)] *)
Definition requests_request (method url : string)
    (headers : list (string * option string)) (data : string) : py http_response :=
  fun w =>
    let r := HttpRequest method url headers data in
    (transport w r, log_request r w).

(** [time.perf_counter()] *)
Definition perf_counter : py Z :=
  fun w => (Returns (ticks w (reads w)), tick w).

(** ** [json.dumps] on a dict of strings

    A Python [str] is a sequence of code points. It is modelled by the Rocq
    [string] of its UTF-8 encoding, a surrogate code point being encoded in
    three bytes like its neighbours, so that every [str] has one
    representation; concatenation and equality are those of the encodings.
    [json.dumps] works on the code points: with the default
    [ensure_ascii=True] every code point outside [' '..'~'] is escaped, as
    are the quote and the backslash. *)

Definition dquote : ascii := ascii_of_nat 34.
Definition backslash : ascii := ascii_of_nat 92.

(** The bytes [10xxxxxx], and the six bits they carry. *)
Definition is_continuation (b : ascii) : bool :=
  ((128 <=? N_of_ascii b) && (N_of_ascii b <? 192))%N.

Definition continuation_bits (b : ascii) : N := (N_of_ascii b - 128)%N.

(** The code point of a sequence of two, three and four bytes. *)
Definition code_point2 (b0 b1 : ascii) : N :=
  ((N_of_ascii b0 - 192) * 64 + continuation_bits b1)%N.

Definition code_point3 (b0 b1 b2 : ascii) : N :=
  ((N_of_ascii b0 - 224) * 4096 + continuation_bits b1 * 64
   + continuation_bits b2)%N.

Definition code_point4 (b0 b1 b2 b3 : ascii) : N :=
  ((N_of_ascii b0 - 240) * 262144 + continuation_bits b1 * 4096
   + continuation_bits b2 * 64 + continuation_bits b3)%N.

(** The sequences that encode a code point, in the shortest form only. *)
Definition is_sequence2 (b0 b1 : ascii) : bool :=
  ((194 <=? N_of_ascii b0) && (N_of_ascii b0 <? 224))%N && is_continuation b1.

Definition is_sequence3 (b0 b1 b2 : ascii) : bool :=
  ((224 <=? N_of_ascii b0) && (N_of_ascii b0 <? 240))%N
  && is_continuation b1 && is_continuation b2
  && (2048 <=? code_point3 b0 b1 b2)%N.

Definition is_sequence4 (b0 b1 b2 b3 : ascii) : bool :=
  ((240 <=? N_of_ascii b0) && (N_of_ascii b0 <? 248))%N
  && is_continuation b1 && is_continuation b2 && is_continuation b3
  && ((65536 <=? code_point4 b0 b1 b2 b3)
      && (code_point4 b0 b1 b2 b3 <? 1114112))%N.

(** The code points of a [str]. A byte that starts no sequence, which the
    representation of a [str] does not have, is read as U+FFFD. *)
Fixpoint code_points (s : string) : list N :=
  match s with
  | EmptyString => []
  | String b0 s1 =>
      if (N_of_ascii b0 <? 128)%N then N_of_ascii b0 :: code_points s1
      else
        match s1 with
        | String b1 s2 =>
            if is_sequence2 b0 b1 then code_point2 b0 b1 :: code_points s2
            else
              match s2 with
              | String b2 s3 =>
                  if is_sequence3 b0 b1 b2
                  then code_point3 b0 b1 b2 :: code_points s3
                  else
                    match s3 with
                    | String b3 s4 =>
                        if is_sequence4 b0 b1 b2 b3
                        then code_point4 b0 b1 b2 b3 :: code_points s4
                        else 65533%N :: code_points s1
                    | EmptyString => 65533%N :: code_points s1
                    end
              | EmptyString => 65533%N :: code_points s1
              end
        | EmptyString => 65533%N :: code_points s1
        end
  end.

(** [len(s)] *)
Definition len (s : string) : nat := length (code_points s).

Definition hex_digit (n : N) : ascii :=
  if (n <? 10)%N then ascii_of_N (48 + n) else ascii_of_N (87 + n).

(** ['\\u{0:04x}'.format(n)] for [n < 0x10000] *)
Definition u_escape (n : N) : string :=
  String backslash
    (String "u"
      (String (hex_digit ((n / 4096) mod 16)%N)
        (String (hex_digit ((n / 256) mod 16)%N)
          (String (hex_digit ((n / 16) mod 16)%N)
            (String (hex_digit (n mod 16)%N) EmptyString))))).

(** The replacement of one code point: a short escape, the character
    itself, a [\uXXXX] escape or, from U+10000 on, the escapes of the two
    surrogates [0xd800 | ((n >> 10) & 0x3ff)] and [0xdc00 | (n & 0x3ff)]
    of [n = cp - 0x10000]. *)
Definition escape_char (cp : N) : string :=
  if (cp =? 34)%N then String backslash (String dquote EmptyString)
  else if (cp =? 92)%N then String backslash (String backslash EmptyString)
  else if (cp =? 8)%N then String backslash "b"
  else if (cp =? 12)%N then String backslash "f"
  else if (cp =? 10)%N then String backslash "n"
  else if (cp =? 13)%N then String backslash "r"
  else if (cp =? 9)%N then String backslash "t"
  else if ((32 <=? cp) && (cp <=? 126))%N then String (ascii_of_N cp) EmptyString
  else if (cp <? 65536)%N then u_escape cp
  else
    u_escape (55296 + ((cp - 65536) / 1024) mod 1024)%N
      ++ u_escape (56320 + (cp - 65536) mod 1024)%N.

Fixpoint escape_code_points (l : list N) : string :=
  match l with
  | [] => EmptyString
  | cp :: l' => escape_char cp ++ escape_code_points l'
  end.

Definition escape_chars (s : string) : string :=
  escape_code_points (code_points s).

(** [json.encoder.encode_basestring_ascii] *)
Definition encode_basestring_ascii (s : string) : string :=
  String dquote (escape_chars s ++ String dquote EmptyString).

Fixpoint json_items (d : list (string * string)) : string :=
  match d with
  | [] => EmptyString
  | [(k, v)] => encode_basestring_ascii k ++ ": " ++ encode_basestring_ascii v
  | (k, v) :: d' =>
      encode_basestring_ascii k ++ ": " ++ encode_basestring_ascii v ++ ", "
        ++ json_items d'
  end.

(** [json.dumps(d)] for a dict [d] from [str] to [str], in insertion order *)
Definition json_dumps (d : list (string * string)) : string :=
  "{" ++ json_items d ++ "}".

(** ** superpipe.steps.step and superpipe.steps.utils *)

Module step.

(** Modelled from the spec: the base class [Step] of superpipe.steps.step,
    which is not part of the sources. The spec describes it as a named
    configuration object whose identity is its name, the name being the
    output field key. *)
Record Step := { name : string }.

(** Modelled from the spec: [StepResult] of superpipe.steps.step, a value
    with the three attributes [fields], [statistics] and [input], the
    first two being mappings. *)
Record StepResult := {
  fields : gmap string value;
  statistics : gmap string value;
  input : string
}.

(** Modelled from the spec: [Step.get_params], which is not part of the
    sources. The spec has the description of a step contain the step's
    name; the base class knows no other configuration field. *)
Definition get_params (self : Step) : py (gmap string object) :=
  mret {[ "name" := Data (VStr (name self)) ]}.

End step.

Module utils.

(** [type(e).__name__ + ": " + str(e)] *)
Definition describe (e : exn) : string :=
  class_name (exn_type e) ++ ": " ++ exn_str e.

(** Modelled from the spec: the instrumentation wrapper [with_statistics]
    of superpipe.steps.utils, which is not part of the sources. By the
    spec the wrapped function is invoked exactly once; the elapsed time is
    recorded under ["latency"] whatever the outcome; on success the
    statistics record a success indicator and the result is the function's
    return value; on failure the exception is caught, the statistics
    record the failure with the kind and message of the error, and the
    result is an explicit error marker, here the exception object itself.
    Time is counted in whole ticks of the performance counter. *)
Definition with_statistics {A} (fn : A -> py value) (x : A)
    : py (value * gmap string value) :=
  start ← perf_counter;
  o ← catch (fn x);
  stop ← perf_counter;
  let latency := VNum (stop - start) in
  match o with
  | Returns v =>
      mret (v, {[ "latency" := latency; "success" := VBool true ]})
  | Raises e =>
      mret (VExc e, {[ "latency" := latency; "success" := VBool false;
                       "error" := VStr (describe e) ]})
  end.

End utils.

(** ** superpipe.steps.serp *)

(** A [SERPEnrichmentStep] after [__init__]: the part set up by
    [super().__init__(name)], and the two attributes the constructor stores. *)
Record SERPEnrichmentStep := {
  super : step.Step;
  prompt : callable row string;
  postprocess : option (callable string value)
}.

(** [self.name] *)
Definition name (self : SERPEnrichmentStep) : string := step.name (super self).

(** [f.__name__] *)
Definition getattr___name__ {A B} (f : callable A B) : py string :=
  match __name__ f with
  | Some n => mret n
  | None => lift (Raises (Exn AttributeError "object has no attribute '__name__'"))
  end.

(** [lambda x: x], applied to a [str] *)
Definition identity : callable string value :=
  Callable (fun x => Returns (VStr x)) (Some "<lambda>").

Section SERP.

(** The two collaborators the module imports from the rest of the package. *)
Variable super_get_params : step.Step -> py (gmap string object).
Variable with_statistics :
  (string -> py value) -> string -> py (value * gmap string value).

(** serp.py, lines 45-56 *)
Definition get_params (self : SERPEnrichmentStep) : py (gmap string object) :=
  base ← super_get_params (super self);
  p ← getattr___name__ (prompt self);
  pp ← match postprocess self with
       | Some f => n ← getattr___name__ f; mret (Data (VStr n))
       | None => mret (Data VNone)
       end;
  mret (<["postprocess" := pp]> (<["prompt" := Data (VStr p)]> base)).

(** serp.py, lines 58-75 *)
Definition _get_search_results (self : SERPEnrichmentStep) (q : string)
    : py string :=
  let url := "https://google.serper.dev/search" in
  let payload := json_dumps [("q", q)] in
  key ← os_environ_get "SERPAPI_API_KEY";
  let headers := [("X-API-KEY", key);
                  ("Content-Type", Some "application/json")] in
  response ← requests_request "POST" url headers payload;
  mret (text response).

(** serp.py, line 91: the local [postprocess] of [_run] *)
Definition _run_postprocess (self : SERPEnrichmentStep) : callable string value :=
  match postprocess self with
  | Some f => f
  | None => identity
  end.

(** serp.py, line 92: the local function [fn] of [_run] *)
Definition _run_fn (self : SERPEnrichmentStep) (x : string) : py value :=
  s ← _get_search_results self x;
  lift (call (_run_postprocess self) s).

(** serp.py, lines 77-94 *)
Definition _run (self : SERPEnrichmentStep) (r : row) : py step.StepResult :=
  search_prompt ← lift (call (prompt self) r);
  '(result, statistics) ← with_statistics (_run_fn self) search_prompt;
  mret (step.Build_StepResult {[ name self := result ]} statistics search_prompt).

End SERP.

(** The step as it runs in the package, with the package's own collaborators. *)
Definition SERP_get_params := get_params step.get_params.
Definition SERP_run := _run utils.with_statistics.

(** ** Vocabulary of the statements *)

(** The request that [_get_search_results] issues for the query [q] when the
    environment is that of [w]. *)
Definition search_request (w : world) (q : string) : http_request :=
  HttpRequest "POST" "https://google.serper.dev/search"
    [("X-API-KEY", environ w !! "SERPAPI_API_KEY");
     ("Content-Type", Some "application/json")]
    (json_dumps [("q", q)]).

(** The outcome of [fn(x)] in world [w]: that of the request, postprocessed. *)
Definition fn_outcome (self : SERPEnrichmentStep) (w : world) (x : string)
    : outcome value :=
  match transport w (search_request w x) with
  | Returns resp => call (_run_postprocess self) (text resp)
  | Raises e => Raises e
  end.

(** The time between the next two readings of the performance counter. *)
Definition elapsed (w : world) : Z :=
  ticks w (S (reads w)) - ticks w (reads w).

(** The world after an instrumented search for [x]: two readings of the
    counter, one request in between. *)
Definition searched (w : world) (x : string) : world :=
  tick (log_request (search_request w x) (tick w)).

(** The value the spec expects in the produced field when the search
    returned [body]: [postprocess(body)], or [body] itself when no
    postprocess is configured. *)
Definition expected_value (self : SERPEnrichmentStep) (body : string)
    : outcome value :=
  match postprocess self with
  | Some f => call f body
  | None => Returns (VStr body)
  end.


(** The label [get_params] is to show for the postprocess field: the name of
    the function, [None] when there is no function, nothing when the
    function has no name. *)
Definition postprocess_label (self : SERPEnrichmentStep) : option value :=
  match postprocess self with
  | Some f => VStr <$> __name__ f
  | None => Some VNone
  end.

(** A parameter description holds a label, not an object. *)
Definition is_label (o : object) : Prop :=
  match o with
  | Data (VStr _) | Data VNone => True
  | _ => False
  end.

(** ** The scenario of the spec, and variations of it *)

(** [{"company": "Acme"}] *)
Definition acme_row : row := {[ "company" := VStr "Acme" ]}.

(** [lambda r: r["company"] + " headquarters"] *)
Definition headquarters : callable row string :=
  Callable
    (fun r : row =>
       match r !! "company" with
       | Some (VStr s) => Returns (s ++ " headquarters")
       | Some _ => Raises (Exn TypeError "unsupported operand type(s) for +")
       | None => Raises (Exn KeyError "'company'")
       end)
    (Some "<lambda>").

(** [functools.partial(headquarters)]: the same behaviour, no [__name__] *)
Definition partial_headquarters : callable row string :=
  Callable (call headquarters) None.

(** A postprocess function that rejects every response. *)
Definition rejecting : callable string value :=
  Callable (fun _ => Raises (Exn ValueError "no organic results")) (Some "rejecting").

Definition serp_step : SERPEnrichmentStep :=
  {| super := {| step.name := "serp" |};
     prompt := headquarters;
     postprocess := None |}.

Definition serp_step_with (post : callable string value) : SERPEnrichmentStep :=
  {| super := {| step.name := "serp" |};
     prompt := headquarters;
     postprocess := Some post |}.

Definition partial_step : SERPEnrichmentStep :=
  {| super := {| step.name := "serp" |};
     prompt := partial_headquarters;
     postprocess := None |}.

(** A world whose search endpoint answers every request with the given
    status code and body. *)
Definition answering (code : Z) (body : string) : world :=
  World ∅ (fun _ => Returns (HttpResponse code body)) [] Z.of_nat 0.

(** A world in which every request times out. *)
Definition timing_out : world :=
  World ∅ (fun _ => Raises (Exn Timeout "Read timed out.")) [] Z.of_nat 0.

(** ** Construction *)

Section Construction.

(** The initialiser of the base class, imported with it. *)
Variable super___init__ : option string -> py step.Step.

(** serp.py, lines 28-43; [postprocess] and [name] default to [None]. *)
Definition __init__ (prompt : callable row string)
    (postprocess : option (callable string value)) (name : option string)
    : py SERPEnrichmentStep :=
  sup ← super___init__ name;
  mret (Build_SERPEnrichmentStep sup prompt postprocess).

End Construction.

(** ** Further collaborators and steps for examples *)

(** A base initialiser that names a step after its class by default. *)
Definition naming_init (name : option string) : py step.Step :=
  mret {| step.name := default "SERPEnrichmentStep" name |}.

(** A base class whose description has an entry [prompt] of its own. *)
Definition describing_prompt (s : step.Step) : py (gmap string object) :=
  mret {[ "name" := Data (VStr (step.name s)); "prompt" := Data VNone ]}.



(** A step with the names of [serp_step_with rejecting] and other functions. *)
Definition lookalike_step : SERPEnrichmentStep :=
  {| super := {| step.name := "serp" |};
     prompt := Callable (fun _ => Raises (Exn RuntimeError "unused"))
                 (Some "<lambda>");
     postprocess := Some (Callable (call identity) (Some "rejecting")) |}.

(** ** Characters and strings of a payload *)

(** The characters [' '..'~']. *)
Definition is_printable (c : ascii) : bool :=
  ((32 <=? N_of_ascii c) && (N_of_ascii c <=? 126))%N.

(** The printable characters other than the quote and the backslash. *)
Definition is_plain (c : ascii) : bool :=
  is_printable c && negb (N_of_ascii c =? 34)%N && negb (N_of_ascii c =? 92)%N.

Fixpoint all_chars (p : ascii -> bool) (s : string) : bool :=
  match s with
  | EmptyString => true
  | String c s' => p c && all_chars p s'
  end.

(** The surrogate code points, which stand for no character. *)
Definition is_surrogate (cp : N) : bool :=
  ((55296 <=? cp) && (cp <? 57344))%N.

(** The UTF-8 encoding of a code point and of a sequence of code points. *)
Definition utf8_char (cp : N) : string :=
  if (cp <? 128)%N then String (ascii_of_N cp) EmptyString
  else if (cp <? 2048)%N then
    String (ascii_of_N (192 + cp / 64))
      (String (ascii_of_N (128 + cp mod 64)) EmptyString)
  else if (cp <? 65536)%N then
    String (ascii_of_N (224 + cp / 4096))
      (String (ascii_of_N (128 + (cp / 64) mod 64))
        (String (ascii_of_N (128 + cp mod 64)) EmptyString))
  else
    String (ascii_of_N (240 + cp / 262144))
      (String (ascii_of_N (128 + (cp / 4096) mod 64))
        (String (ascii_of_N (128 + (cp / 64) mod 64))
          (String (ascii_of_N (128 + cp mod 64)) EmptyString))).

Fixpoint utf8 (l : list N) : string :=
  match l with
  | [] => EmptyString
  | cp :: l' => utf8_char cp ++ utf8 l'
  end.

(** The strings that represent a [str] without surrogate code points. *)
Definition is_text (s : string) : Prop :=
  utf8 (code_points s) = s /\
  forallb (fun cp => negb (is_surrogate cp)) (code_points s) = true.

(** The UTF-16 code units of a code point. *)
Definition utf16 (cp : N) : list N :=
  if (cp <? 65536)%N then [cp]
  else [(55296 + ((cp - 65536) / 1024) mod 1024)%N;
        (56320 + (cp - 65536) mod 1024)%N].

(** The value of a hexadecimal digit. *)
Definition hex_value (c : ascii) : option N :=
  let n := N_of_ascii c in
  if ((48 <=? n) && (n <=? 57))%N then Some (n - 48)%N
  else if ((97 <=? n) && (n <=? 102))%N then Some (n - 87)%N
  else if ((65 <=? n) && (n <=? 70))%N then Some (n - 55)%N
  else None.

Definition hex4 (a b c d : ascii) : option N :=
  match hex_value a, hex_value b, hex_value c, hex_value d with
  | Some x3, Some x2, Some x1, Some x0 =>
      Some (4096 * x3 + 256 * x2 + 16 * x1 + x0)%N
  | _, _, _, _ => None
  end.

(** The character an escape letter stands for. *)
Definition unescape_letter (c : ascii) : option N :=
  let n := N_of_ascii c in
  if (n =? 34)%N then Some 34%N
  else if (n =? 92)%N then Some 92%N
  else if (n =? 47)%N then Some 47%N
  else if (n =? 98)%N then Some 8%N
  else if (n =? 102)%N then Some 12%N
  else if (n =? 110)%N then Some 10%N
  else if (n =? 114)%N then Some 13%N
  else if (n =? 116)%N then Some 9%N
  else None.

Definition scanned (u : N) (r : option (list N * string))
    : option (list N * string) :=
  match r with
  | Some (l, rest) => Some (u :: l, rest)
  | None => None
  end.

(** A reader for the body of a JSON string, after its opening quote: the
    UTF-16 code units written up to the closing quote, and what follows
    that quote. *)
Fixpoint scan_units (s : string) : option (list N * string) :=
  match s with
  | EmptyString => None
  | String c s' =>
      if (N_of_ascii c =? 34)%N then Some ([], s')
      else if (N_of_ascii c =? 92)%N then
        match s' with
        | EmptyString => None
        | String e s'' =>
            if (N_of_ascii e =? 117)%N then
              match s'' with
              | String a (String b (String h (String l t))) =>
                  match hex4 a b h l with
                  | Some u => scanned u (scan_units t)
                  | None => None
                  end
              | _ => None
              end
            else
              match unescape_letter e with
              | Some u => scanned u (scan_units s'')
              | None => None
              end
        end
      else scanned (N_of_ascii c) (scan_units s')
  end.

(** The four shapes of the replacement of a code point. *)
Inductive escape_shape (cp : N) : string -> Prop :=
  | shape_short c :
      In cp [34; 92; 8; 12; 10; 13; 9]%N -> is_printable c = true ->
      unescape_letter c = Some cp -> N_of_ascii c <> 117%N ->
      escape_shape cp (String backslash (String c EmptyString))
  | shape_plain :
      (32 <= cp <= 126)%N -> cp <> 34%N -> cp <> 92%N ->
      escape_shape cp (String (ascii_of_N cp) EmptyString)
  | shape_unit :
      (cp < 32 \/ 126 < cp)%N -> (cp < 65536)%N ->
      escape_shape cp (u_escape cp)
  | shape_pair :
      (65536 <= cp)%N ->
      escape_shape cp
        (u_escape (55296 + ((cp - 65536) / 1024) mod 1024)%N
           ++ u_escape (56320 + (cp - 65536) mod 1024)%N).

(** The two surrogates of U+1F600, each on its own. *)
Definition lone_surrogates : string :=
  String (ascii_of_nat 237) (String (ascii_of_nat 160) (String (ascii_of_nat 189)
    (String (ascii_of_nat 237) (String (ascii_of_nat 184)
      (String (ascii_of_nat 128) EmptyString))))).

(** * Properties *)

(** ** The two scenarios of the spec *)

Example acme_search_succeeds :
  fst (SERP_run serp_step acme_row (answering 200 "Acme HQ is in Springfield")) =
  Returns
    {| step.fields := {[ "serp" := VStr "Acme HQ is in Springfield" ]};
       step.statistics := {[ "latency" := VNum 1; "success" := VBool true ]};
       step.input := "Acme headquarters" |}.
Proof. reflexivity. Qed.

Example acme_search_times_out :
  fst (SERP_run serp_step acme_row timing_out) =
  Returns
    {| step.fields := {[ "serp" := VExc (Exn Timeout "Read timed out.") ]};
       step.statistics :=
         {[ "latency" := VNum 1; "success" := VBool false;
            "error" := VStr "Timeout: Read timed out." ]};
       step.input := "Acme headquarters" |}.
Proof. reflexivity. Qed.

Example acme_request_sent :
  sent (snd (SERP_run serp_step acme_row timing_out)) =
  [ {| req_method := "POST";
       req_url := "https://google.serper.dev/search";
       req_headers := [("X-API-KEY", None);
                       ("Content-Type", Some "application/json")];
       req_data := json_dumps [("q", "Acme headquarters")] |} ].
Proof. reflexivity. Qed.

(** ** The monad and the library calls *)

Lemma bind_returns {A B} (m : py A) (k : A -> py B) w a w' :
  m w = (Returns a, w') -> (m ≫= k) w = k a w'.
Proof. intros H. unfold mbind, py_bind. now rewrite H. Qed.

Lemma bind_raises {A B} (m : py A) (k : A -> py B) w e w' :
  m w = (Raises e, w') -> (m ≫= k) w = (Raises e, w').
Proof. intros H. unfold mbind, py_bind. now rewrite H. Qed.

Lemma bind_inv {A B} (m : py A) (k : A -> py B) w b w' :
  (m ≫= k) w = (Returns b, w') ->
  exists a w1, m w = (Returns a, w1) /\ k a w1 = (Returns b, w').
Proof.
  unfold mbind, py_bind. destruct (m w) as [[a|e] w1]; intros H.
  - now exists a, w1.
  - discriminate.
Qed.

Lemma _get_search_results_eq self q w :
  _get_search_results self q w =
    (match transport w (search_request w q) with
     | Returns resp => Returns (text resp)
     | Raises e => Raises e
     end,
     log_request (search_request w q) w).
Proof.
  unfold _get_search_results, mbind, py_bind, os_environ_get, requests_request.
  fold (search_request w q).
  now destruct (transport w (search_request w q)).
Qed.

Lemma _run_fn_eq self x w :
  _run_fn self x w = (fn_outcome self w x, log_request (search_request w x) w).
Proof.
  unfold _run_fn, fn_outcome, mbind, py_bind. rewrite _get_search_results_eq.
  now destruct (transport w (search_request w x)).
Qed.

Lemma with_statistics_eq {A} (fn : A -> py value) x w o w1 :
  fn x (tick w) = (o, w1) ->
  utils.with_statistics fn x w =
    (Returns
       (match o with
        | Returns v =>
            (v, {[ "latency" := VNum (ticks w1 (reads w1) - ticks w (reads w));
                   "success" := VBool true ]})
        | Raises e =>
            (VExc e, {[ "latency" := VNum (ticks w1 (reads w1) - ticks w (reads w));
                        "success" := VBool false;
                        "error" := VStr (utils.describe e) ]})
        end),
     tick w1).
Proof.
  intros H. unfold utils.with_statistics, mbind, py_bind, perf_counter, catch.
  rewrite H. now destruct o.
Qed.

(** The run of the step in full, once the prompt has produced [x]. *)
Lemma SERP_run_eq self r w x :
  call (prompt self) r = Returns x ->
  SERP_run self r w =
    (Returns
       (match fn_outcome self w x with
        | Returns v =>
            {| step.fields := {[ name self := v ]};
               step.statistics :=
                 {[ "latency" := VNum (elapsed w); "success" := VBool true ]};
               step.input := x |}
        | Raises e =>
            {| step.fields := {[ name self := VExc e ]};
               step.statistics :=
                 {[ "latency" := VNum (elapsed w); "success" := VBool false;
                    "error" := VStr (utils.describe e) ]};
               step.input := x |}
        end),
     searched w x).
Proof.
  intros Hx. unfold SERP_run, _run.
  rewrite (bind_returns _ _ w x w) by (unfold lift; now rewrite Hx).
  rewrite (bind_returns _ _ w _ _
             (with_statistics_eq _ _ _ _ _ (_run_fn_eq self x (tick w)))).
  unfold fn_outcome, searched, elapsed; simpl.
  change (search_request (tick w) x) with (search_request w x).
  now destruct (transport w (search_request w x)) as [resp|e];
    [destruct (call (_run_postprocess self) (text resp))|].
Qed.

Lemma _get_search_results_fst self q w :
  fst (_get_search_results self q w) =
    match transport w (search_request w q) with
    | Returns resp => Returns (text resp)
    | Raises e => Raises e
    end.
Proof. now rewrite _get_search_results_eq. Qed.

Lemma _run_postprocess_expected self body :
  call (_run_postprocess self) body = expected_value self body.
Proof. unfold _run_postprocess, expected_value. now destruct (postprocess self). Qed.

(** [fn] succeeds exactly when the search and the postprocessing both do. *)
Lemma fn_outcome_returns self w x body y :
  fst (_get_search_results self x w) = Returns body ->
  expected_value self body = Returns y ->
  fn_outcome self w x = Returns y.
Proof.
  rewrite _get_search_results_fst. unfold fn_outcome.
  destruct (transport w (search_request w x)) as [resp|e0]; [|discriminate].
  intros [= <-] Hy. now rewrite _run_postprocess_expected.
Qed.

Lemma fn_outcome_raises self w x e :
  fst (_get_search_results self x w) = Raises e \/
  (exists body, fst (_get_search_results self x w) = Returns body /\
                expected_value self body = Raises e) ->
  fn_outcome self w x = Raises e.
Proof.
  rewrite _get_search_results_fst. unfold fn_outcome.
  destruct (transport w (search_request w x)) as [resp|e0].
  - intros [H | (body & [= <-] & H)]; [discriminate|].
    now rewrite _run_postprocess_expected.
  - intros [[= <-] | (body & H & _)]; [reflexivity | discriminate].
Qed.

Lemma run_inv ws self r w sr w' :
  _run ws self r w = (Returns sr, w') ->
  exists x res,
    call (prompt self) r = Returns x /\
    ws (_run_fn self) x w = (Returns (res, step.statistics sr), w') /\
    sr = {| step.fields := {[ name self := res ]};
            step.statistics := step.statistics sr;
            step.input := x |}.
Proof.
  unfold _run. intros H.
  apply bind_inv in H as (x & w1 & Hx & H).
  unfold lift in Hx. injection Hx as Hx <-.
  apply bind_inv in H as ([res stats] & w2 & Hws & H).
  injection H as <- <-. now exists x, res.
Qed.

Lemma class_name_nonempty c : class_name c <> "".
Proof. now destruct c. Qed.

Lemma describe_nonempty e : utils.describe e <> "".
Proof.
  unfold utils.describe. destruct e as [c m]; simpl.
  now destruct c.
Qed.

(** ** Running the step *)

(** C1. When the prompt returns [x] for the row, the search succeeds on [x]
    with the response text [body], and the expected value
    [postprocess(body)] (or [body] itself without a postprocess) is [y],
    then [_run] returns a [StepResult] whose field under the step's name is
    [y] and whose statistics mark the call as a success, with no error
    recorded. *)
Theorem C1_run_success self r w x body y :
  call (prompt self) r = Returns x ->
  fst (_get_search_results self x w) = Returns body ->
  expected_value self body = Returns y ->
  exists sr w',
    SERP_run self r w = (Returns sr, w') /\
    step.fields sr !! name self = Some y /\
    step.statistics sr !! "success" = Some (VBool true) /\
    step.statistics sr !! "error" = None.
Proof.
  intros Hx Hbody Hy.
  rewrite (SERP_run_eq self r w x Hx),
    (fn_outcome_returns self w x body y Hbody Hy).
  eexists _, _. split; [reflexivity|]. simpl.
  split; [apply lookup_singleton_eq|]. now split.
Qed.

Lemma C1_run_success_witness :
  call (prompt serp_step) acme_row = Returns "Acme headquarters" /\
  fst (_get_search_results serp_step "Acme headquarters"
         (answering 200 "Acme HQ is in Springfield"))
    = Returns "Acme HQ is in Springfield" /\
  expected_value serp_step "Acme HQ is in Springfield"
    = Returns (VStr "Acme HQ is in Springfield") /\
  exists sr w',
    SERP_run serp_step acme_row (answering 200 "Acme HQ is in Springfield")
      = (Returns sr, w') /\
    step.fields sr !! "serp" = Some (VStr "Acme HQ is in Springfield") /\
    step.statistics sr !! "success" = Some (VBool true) /\
    step.statistics sr !! "error" = None.
Proof.
  split; [reflexivity|]. split; [reflexivity|]. split; [reflexivity|].
  apply (C1_run_success serp_step acme_row
           (answering 200 "Acme HQ is in Springfield")
           "Acme headquarters" "Acme HQ is in Springfield"
           (VStr "Acme HQ is in Springfield")); reflexivity.
Defined.

(** C2. Whatever the instrumentation wrapper, a [StepResult] returned by
    [_run] has exactly one key in [fields], the step's name; this holds
    whether the wrapped call succeeded or failed, so the key is there in
    either case. *)
Theorem C2_fields_single_key ws self r w sr w' :
  _run ws self r w = (Returns sr, w') ->
  dom (step.fields sr) = {[ name self ]} /\
  size (step.fields sr) = 1%nat /\
  is_Some (step.fields sr !! name self).
Proof.
  intros H. apply run_inv in H as (x & res & _ & _ & ->). simpl.
  split; [apply dom_singleton_L|].
  split; [apply map_size_singleton|].
  rewrite lookup_singleton_eq. now exists res.
Qed.

Lemma C2_fields_single_key_witness :
  exists sr w',
    _run utils.with_statistics serp_step acme_row timing_out = (Returns sr, w') /\
    dom (step.fields sr) = {[ "serp" ]} /\
    size (step.fields sr) = 1%nat /\
    is_Some (step.fields sr !! "serp").
Proof.
  eexists _, _. split; [reflexivity|].
  apply (C2_fields_single_key utils.with_statistics serp_step acme_row
           timing_out _ _ eq_refl).
Defined.

(** C3. When the prompt returns [x] and the search on [x] raises [e], or the
    search returns and the postprocess function raises [e] on its result,
    [_run] does not raise: it returns a [StepResult] whose field under the
    step's name is the error marker, the exception object [e], which is not
    [None]; its statistics record the failure and a non-empty description
    of the error made of its kind, itself non-empty, and its message. *)
Theorem C3_run_failure self r w x e :
  call (prompt self) r = Returns x ->
  (fst (_get_search_results self x w) = Raises e \/
   exists body, fst (_get_search_results self x w) = Returns body /\
                expected_value self body = Raises e) ->
  exists sr w' d,
    SERP_run self r w = (Returns sr, w') /\
    step.fields sr !! name self = Some (VExc e) /\
    VExc e <> VNone /\
    step.statistics sr !! "success" = Some (VBool false) /\
    step.statistics sr !! "error" = Some (VStr d) /\
    d = class_name (exn_type e) ++ ": " ++ exn_str e /\
    class_name (exn_type e) <> "" /\
    d <> "".
Proof.
  intros Hx He.
  rewrite (SERP_run_eq self r w x Hx), (fn_outcome_raises self w x e He).
  eexists _, _, (utils.describe e). split; [reflexivity|]. simpl.
  split; [apply lookup_singleton_eq|].
  split; [discriminate|].
  split; [reflexivity|].
  split; [reflexivity|].
  split; [reflexivity|].
  split; [apply class_name_nonempty | apply describe_nonempty].
Qed.

Lemma C3_run_failure_witness :
  call (prompt (serp_step_with rejecting)) acme_row = Returns "Acme headquarters" /\
  (exists body,
     fst (_get_search_results (serp_step_with rejecting) "Acme headquarters"
            (answering 200 "{}")) = Returns body /\
     expected_value (serp_step_with rejecting) body
       = Raises (Exn ValueError "no organic results")) /\
  exists sr w' d,
    SERP_run (serp_step_with rejecting) acme_row (answering 200 "{}")
      = (Returns sr, w') /\
    step.fields sr !! "serp" = Some (VExc (Exn ValueError "no organic results")) /\
    VExc (Exn ValueError "no organic results") <> VNone /\
    step.statistics sr !! "success" = Some (VBool false) /\
    step.statistics sr !! "error" = Some (VStr d) /\
    d = "ValueError: no organic results" /\
    "ValueError" <> "" /\
    d <> "".
Proof.
  split; [reflexivity|].
  split; [exists "{}"; split; reflexivity|].
  apply (C3_run_failure (serp_step_with rejecting) acme_row (answering 200 "{}")
           "Acme headquarters" (Exn ValueError "no organic results"));
    [reflexivity|].
  right. exists "{}". split; reflexivity.
Defined.

(** C4. When the prompt raises on the row, [_run] raises the same exception
    whatever the instrumentation wrapper: there is no [StepResult] and there
    are no statistics, and the world is left as it was, so that no request
    has been sent and the performance counter has not been read. *)
Theorem C4_prompt_error_propagates ws self r w e :
  call (prompt self) r = Raises e ->
  _run ws self r w = (Raises e, w) /\
  sent (snd (_run ws self r w)) = sent w /\
  (forall sr, fst (_run ws self r w) <> Returns sr).
Proof.
  intros He.
  assert (H : _run ws self r w = (Raises e, w)).
  { unfold _run. apply bind_raises. unfold lift. now rewrite He. }
  rewrite H. simpl. split; [reflexivity|]. split; [reflexivity|]. discriminate.
Qed.

Lemma C4_prompt_error_propagates_witness :
  call (prompt serp_step) ∅ = Raises (Exn KeyError "'company'") /\
  SERP_run serp_step ∅ (answering 200 "ok")
    = (Raises (Exn KeyError "'company'"), answering 200 "ok") /\
  sent (snd (SERP_run serp_step ∅ (answering 200 "ok"))) = [] /\
  (forall sr, fst (SERP_run serp_step ∅ (answering 200 "ok")) <> Returns sr).
Proof.
  split; [reflexivity|].
  apply (C4_prompt_error_propagates utils.with_statistics serp_step ∅
           (answering 200 "ok") (Exn KeyError "'company'")).
  reflexivity.
Defined.

(** C6. Whatever the instrumentation wrapper, a [StepResult] returned by
    [_run] carries as [input] the value [x] the prompt produced for the row,
    and [x] is the very argument the instrumented call was applied to, the
    value it produced being the one stored in [fields], and its statistics
    the ones returned. *)
Theorem C6_input_is_effective_input ws self r w sr w' :
  _run ws self r w = (Returns sr, w') ->
  exists x res,
    call (prompt self) r = Returns x /\
    ws (_run_fn self) x w = (Returns (res, step.statistics sr), w') /\
    step.fields sr = {[ name self := res ]} /\
    step.input sr = x.
Proof.
  intros H. apply run_inv in H as (x & res & Hx & Hws & Hsr).
  exists x, res. split; [exact Hx|]. split; [exact Hws|].
  split; now rewrite Hsr.
Qed.

Lemma C6_input_is_effective_input_witness :
  exists sr w',
    SERP_run serp_step acme_row (answering 200 "Acme HQ is in Springfield")
      = (Returns sr, w') /\
    exists x res,
      call (prompt serp_step) acme_row = Returns x /\
      utils.with_statistics (_run_fn serp_step) x
        (answering 200 "Acme HQ is in Springfield")
        = (Returns (res, step.statistics sr), w') /\
      step.fields sr = {[ "serp" := res ]} /\
      step.input sr = x.
Proof.
  eexists _, _. split; [reflexivity|].
  apply (C6_input_is_effective_input utils.with_statistics serp_step acme_row
           (answering 200 "Acme HQ is in Springfield") _ _ eq_refl).
Defined.

(** With the spec's wrapper the request that went out carries that input. *)
Lemma SERP_run_sends_input self r w sr w' :
  SERP_run self r w = (Returns sr, w') ->
  sent w' = (sent w ++ [search_request w (step.input sr)])%list.
Proof.
  intros H. pose proof H as H0.
  apply run_inv in H0 as (x & _ & Hx & _ & _).
  rewrite (SERP_run_eq self r w x Hx) in H. injection H as Hsr <-.
  replace (step.input sr) with x; [reflexivity|].
  rewrite <- Hsr. now destruct (fn_outcome self w x).
Qed.

(** C7. Whatever the instrumentation wrapper, a step without postprocess
    runs on every row and in every world exactly as the same step with a
    postprocess function that returns its argument. *)
Theorem C7_postprocess_defaults_to_identity ws sup pr (p : callable string value) :
  (forall s, call p s = Returns (VStr s)) ->
  forall r w,
    _run ws {| super := sup; prompt := pr; postprocess := None |} r w =
    _run ws {| super := sup; prompt := pr; postprocess := Some p |} r w.
Proof.
  intros Hp r w. unfold _run.
  replace (_run_fn {| super := sup; prompt := pr; postprocess := Some p |})
    with (_run_fn {| super := sup; prompt := pr; postprocess := None |});
    [reflexivity|].
  apply functional_extensionality; intros x.
  apply functional_extensionality; intros w0.
  rewrite !_run_fn_eq. f_equal. unfold fn_outcome.
  destruct (transport w0 (search_request w0 x)) as [resp|e]; [|reflexivity].
  simpl. now rewrite Hp.
Qed.

Lemma C7_postprocess_defaults_to_identity_witness :
  (forall s, call identity s = Returns (VStr s)) /\
  SERP_run serp_step acme_row (answering 200 "Acme HQ is in Springfield") =
  SERP_run (serp_step_with identity) acme_row
    (answering 200 "Acme HQ is in Springfield").
Proof.
  split; [reflexivity|].
  apply (C7_postprocess_defaults_to_identity utils.with_statistics
           {| step.name := "serp" |} headquarters identity).
  reflexivity.
Defined.




(** ** Describing the step *)

Lemma getattr___name___some {A B} (f : callable A B) n w :
  __name__ f = Some n -> getattr___name__ f w = (Returns n, w).
Proof. intros H. unfold getattr___name__. now rewrite H. Qed.

Lemma getattr___name___none {A B} (f : callable A B) w :
  __name__ f = None ->
  getattr___name__ f w =
    (Raises (Exn AttributeError "object has no attribute '__name__'"), w).
Proof. intros H. unfold getattr___name__. now rewrite H. Qed.

(** The description of a step whose callables are named, in full. *)
Lemma SERP_get_params_eq self pn ppl w :
  __name__ (prompt self) = Some pn ->
  postprocess_label self = Some ppl ->
  SERP_get_params self w =
    (Returns (<["postprocess" := Data ppl]>
                (<["prompt" := Data (VStr pn)]>
                   {[ "name" := Data (VStr (name self)) ]})), w).
Proof.
  intros Hpn Hppl. unfold SERP_get_params, get_params, step.get_params.
  unfold mbind at 1, py_bind at 1, mret at 1, py_ret at 1.
  rewrite (bind_returns _ _ _ _ _ (getattr___name___some _ _ w Hpn)).
  unfold postprocess_label in Hppl.
  destruct (postprocess self) as [f|].
  - destruct (__name__ f) as [n|] eqn:Hn; [|discriminate].
    injection Hppl as <-.
    unfold mbind at 1, py_bind at 1.
    now rewrite (bind_returns _ _ _ _ _ (getattr___name___some _ _ w Hn)).
  - now injection Hppl as <-.
Qed.

(** C5, as amended. For a step whose prompt has a [__name__], and whose
    postprocess function, when there is one, has a [__name__] too,
    [get_params] returns the same mapping in every world and leaves the
    world as it was; the mapping has the three keys [name], [prompt] and
    [postprocess], holding the step's name, the prompt's [__name__], and the
    postprocess function's [__name__] or [None] when there is no postprocess
    function; every entry is a string or [None], never a callable. *)
Theorem C5_get_params_labels self pn ppl :
  __name__ (prompt self) = Some pn ->
  postprocess_label self = Some ppl ->
  exists m : gmap string object,
    (forall w, SERP_get_params self w = (Returns m, w)) /\
    m !! "name" = Some (Data (VStr (name self))) /\
    m !! "prompt" = Some (Data (VStr pn)) /\
    m !! "postprocess" = Some (Data ppl) /\
    dom m = {[ "name"; "prompt"; "postprocess" ]} /\
    (forall k o, m !! k = Some o -> is_label o).
Proof.
  intros Hpn Hppl. eexists.
  split; [intros w; apply (SERP_get_params_eq self pn ppl w Hpn Hppl)|].
  assert (Hl : is_label (Data ppl)).
  { unfold postprocess_label in Hppl. destruct (postprocess self) as [f|].
    - destruct (__name__ f); [|discriminate]. now injection Hppl as <-.
    - now injection Hppl as <-. }
  split; [now rewrite lookup_insert_ne, lookup_insert_ne, lookup_singleton_eq|].
  split; [now rewrite lookup_insert_ne, lookup_insert_eq|].
  split; [now rewrite lookup_insert_eq|].
  split; [rewrite !dom_insert_L, dom_singleton_L; set_solver|].
  intros k o. rewrite !lookup_insert.
  repeat case_decide; [now intros [= <-] | now intros [= <-] |].
  rewrite lookup_singleton. case_decide; [now intros [= <-] | discriminate].
Qed.

Lemma C5_get_params_labels_witness :
  __name__ (prompt (serp_step_with rejecting)) = Some "<lambda>" /\
  postprocess_label (serp_step_with rejecting) = Some (VStr "rejecting") /\
  exists m : gmap string object,
    (forall w, SERP_get_params (serp_step_with rejecting) w = (Returns m, w)) /\
    m !! "name" = Some (Data (VStr "serp")) /\
    m !! "prompt" = Some (Data (VStr "<lambda>")) /\
    m !! "postprocess" = Some (Data (VStr "rejecting")) /\
    dom m = {[ "name"; "prompt"; "postprocess" ]} /\
    (forall k o, m !! k = Some o -> is_label o).
Proof.
  split; [reflexivity|]. split; [reflexivity|].
  apply (C5_get_params_labels (serp_step_with rejecting) "<lambda>"
           (VStr "rejecting")); reflexivity.
Defined.

(** C5 as stated fails: the prompt of [partial_step] is a callable without a
    [__name__], and [get_params] raises instead of returning a mapping. *)
Lemma C5_counterexample :
  fst (SERP_get_params partial_step (answering 200 "ok"))
    = Raises (Exn AttributeError "object has no attribute '__name__'") /\
  ~ exists m, fst (SERP_get_params partial_step (answering 200 "ok")) = Returns m.
Proof.
  split; [reflexivity|]. intros [m H]. discriminate H.
Qed.

(** C9. Whatever the base class contributes to the description, when the
    prompt has no [__name__], or there is a postprocess function and it has
    no [__name__], [get_params] raises [AttributeError] instead of returning
    a description. *)
Theorem C9_get_params_raises sgp self w base w1 :
  sgp (super self) w = (Returns base, w1) ->
  (__name__ (prompt self) = None \/
   exists f, postprocess self = Some f /\ __name__ f = None) ->
  exists msg,
    get_params sgp self w = (Raises (Exn AttributeError msg), w1).
Proof.
  intros Hbase Hnone. eexists. unfold get_params.
  rewrite (bind_returns _ _ _ _ _ Hbase).
  destruct (__name__ (prompt self)) as [pn|] eqn:Hpn.
  - destruct Hnone as [|(f & Hf & Hn)]; [discriminate|].
    rewrite (bind_returns _ _ _ _ _ (getattr___name___some _ _ w1 Hpn)).
    rewrite Hf. apply bind_raises, bind_raises.
    now apply getattr___name___none.
  - apply bind_raises. now apply getattr___name___none.
Qed.

Lemma C9_get_params_raises_witness :
  step.get_params (super partial_step) (answering 200 "ok")
    = (Returns {[ "name" := Data (VStr "serp") ]}, answering 200 "ok") /\
  __name__ (prompt partial_step) = None /\
  exists msg,
    SERP_get_params partial_step (answering 200 "ok")
      = (Raises (Exn AttributeError msg), answering 200 "ok").
Proof.
  split; [reflexivity|]. split; [reflexivity|].
  apply (C9_get_params_raises step.get_params partial_step (answering 200 "ok")
           {[ "name" := Data (VStr "serp") ]} (answering 200 "ok") eq_refl).
  left. reflexivity.
Defined.

(** ** The search call *)

(** C10. Whatever the status code of the response, [_get_search_results]
    returns the text of the response and does not raise; the step then
    records the call as a success, with no error, and the produced field is
    the expected value for that text. *)
Theorem C10_status_code_ignored self q w code body :
  transport w (search_request w q) = Returns (HttpResponse code body) ->
  _get_search_results self q w
    = (Returns body, log_request (search_request w q) w) /\
  forall r y,
    call (prompt self) r = Returns q ->
    expected_value self body = Returns y ->
    exists sr w',
      SERP_run self r w = (Returns sr, w') /\
      step.fields sr !! name self = Some y /\
      step.statistics sr !! "success" = Some (VBool true) /\
      step.statistics sr !! "error" = None.
Proof.
  intros Hresp.
  assert (H : _get_search_results self q w
              = (Returns body, log_request (search_request w q) w)).
  { rewrite _get_search_results_eq. now rewrite Hresp. }
  split; [exact H|]. intros r y Hq Hy.
  rewrite (SERP_run_eq self r w q Hq).
  rewrite (fn_outcome_returns self w q body y); [|now rewrite H|exact Hy].
  eexists _, _. split; [reflexivity|]. simpl.
  split; [apply lookup_singleton_eq|]. now split.
Qed.

Lemma C10_status_code_ignored_witness :
  transport (answering 401 "Unauthorized.")
    (search_request (answering 401 "Unauthorized.") "Acme headquarters")
    = Returns (HttpResponse 401 "Unauthorized.") /\
  fst (_get_search_results serp_step "Acme headquarters"
         (answering 401 "Unauthorized.")) = Returns "Unauthorized." /\
  exists sr w',
    SERP_run serp_step acme_row (answering 401 "Unauthorized.")
      = (Returns sr, w') /\
    step.fields sr !! "serp" = Some (VStr "Unauthorized.") /\
    step.statistics sr !! "success" = Some (VBool true) /\
    step.statistics sr !! "error" = None.
Proof.
  split; [reflexivity|].
  destruct (C10_status_code_ignored serp_step "Acme headquarters"
              (answering 401 "Unauthorized.") 401 "Unauthorized." eq_refl)
    as [Hget Hrun].
  split; [now rewrite Hget|].
  apply (Hrun acme_row (VStr "Unauthorized.")); reflexivity.
Defined.

(** * Further properties of the module *)

(** ** The payload of a search request *)

(** Linear arithmetic with divisions by constants. *)
Ltac div_lia := zify; Z.to_euclidean_division_equations; lia.

Lemma string_app_cons x (a b : string) : String x a ++ b = String x (a ++ b).
Proof. reflexivity. Qed.

Lemma string_app_assoc (a b c : string) : (a ++ b) ++ c = a ++ (b ++ c).
Proof.
  induction a as [|x a IH]; [reflexivity|].
  now rewrite !string_app_cons, IH.
Qed.

Lemma string_app_length (a b : string) :
  String.length (a ++ b) = (String.length a + String.length b)%nat.
Proof.
  induction a as [|x a IH]; [reflexivity|].
  rewrite string_app_cons. simpl. now rewrite IH.
Qed.

Lemma all_chars_app p a b : all_chars p (a ++ b) = all_chars p a && all_chars p b.
Proof.
  induction a as [|x a IH]; [reflexivity|].
  rewrite string_app_cons. simpl. now rewrite IH, andb_assoc.
Qed.

(** *** Every character of an escape is printable *)

Lemma hex_digit_cases d :
  (d < 16)%N ->
  is_printable (hex_digit d) = true /\ hex_value (hex_digit d) = Some d.
Proof.
  intros H.
  assert (Hd : In d [0; 1; 2; 3; 4; 5; 6; 7; 8; 9; 10; 11; 12; 13; 14; 15]%N).
  { simpl. lia. }
  simpl in Hd.
  repeat (destruct Hd as [<-|Hd]; [split; reflexivity|]). destruct Hd.
Qed.

Lemma N_of_ascii_of_N n : (n < 256)%N -> N_of_ascii (ascii_of_N n) = n.
Proof. apply N_ascii_embedding. Qed.

Lemma u_escape_printable n : all_chars is_printable (u_escape n) = true.
Proof.
  unfold u_escape. cbn [all_chars].
  rewrite !(proj1 (hex_digit_cases _ (N.mod_lt _ 16 ltac:(lia)))).
  reflexivity.
Qed.

Lemma u_escape_length n : String.length (u_escape n) = 6%nat.
Proof. reflexivity. Qed.

Lemma escape_char_shape cp : escape_shape cp (escape_char cp).
Proof.
  unfold escape_char.
  destruct (N.eqb_spec cp 34) as [->|?];
    [apply (shape_short _ dquote); [simpl; lia|reflexivity|reflexivity|discriminate]|].
  destruct (N.eqb_spec cp 92) as [->|?];
    [apply (shape_short _ backslash); [simpl; lia|reflexivity|reflexivity|discriminate]|].
  destruct (N.eqb_spec cp 8) as [->|?];
    [apply (shape_short _ "b"%char); [simpl; lia|reflexivity|reflexivity|discriminate]|].
  destruct (N.eqb_spec cp 12) as [->|?];
    [apply (shape_short _ "f"%char); [simpl; lia|reflexivity|reflexivity|discriminate]|].
  destruct (N.eqb_spec cp 10) as [->|?];
    [apply (shape_short _ "n"%char); [simpl; lia|reflexivity|reflexivity|discriminate]|].
  destruct (N.eqb_spec cp 13) as [->|?];
    [apply (shape_short _ "r"%char); [simpl; lia|reflexivity|reflexivity|discriminate]|].
  destruct (N.eqb_spec cp 9) as [->|?];
    [apply (shape_short _ "t"%char); [simpl; lia|reflexivity|reflexivity|discriminate]|].
  destruct (N.leb_spec 32 cp), (N.leb_spec cp 126); cbn [andb];
    try (destruct (N.ltb_spec cp 65536);
         [apply shape_unit; lia | apply shape_pair; lia]).
  apply shape_plain; lia.
Qed.

Lemma hex_digits_value n :
  (n < 65536)%N ->
  (4096 * ((n / 4096) mod 16) + 256 * ((n / 256) mod 16)
   + 16 * ((n / 16) mod 16) + n mod 16 = n)%N.
Proof. intros H. zify. Z.to_euclidean_division_equations. lia. Qed.

Lemma hex4_hex_digits n :
  (n < 65536)%N ->
  hex4 (hex_digit ((n / 4096) mod 16)%N) (hex_digit ((n / 256) mod 16)%N)
       (hex_digit ((n / 16) mod 16)%N) (hex_digit (n mod 16)%N) = Some n.
Proof.
  intros H. unfold hex4.
  rewrite !(proj2 (hex_digit_cases _ (N.mod_lt _ 16 ltac:(lia)))).
  now rewrite hex_digits_value.
Qed.

Lemma scan_units_cons c s' :
  scan_units (String c s') =
    if (N_of_ascii c =? 34)%N then Some ([], s')
    else if (N_of_ascii c =? 92)%N then
      match s' with
      | EmptyString => None
      | String e s'' =>
          if (N_of_ascii e =? 117)%N then
            match s'' with
            | String a (String b (String h (String l t))) =>
                match hex4 a b h l with
                | Some u => scanned u (scan_units t)
                | None => None
                end
            | _ => None
            end
          else
            match unescape_letter e with
            | Some u => scanned u (scan_units s'')
            | None => None
            end
      end
    else scanned (N_of_ascii c) (scan_units s').
Proof. reflexivity. Qed.

Lemma scan_units_u_escape n rest :
  (n < 65536)%N ->
  scan_units (u_escape n ++ rest) = scanned n (scan_units rest).
Proof.
  intros H. unfold u_escape. rewrite !string_app_cons, scan_units_cons.
  change (N_of_ascii backslash) with 92%N.
  change (N_of_ascii "u") with 117%N. cbn [N.eqb Pos.eqb].
  change (EmptyString ++ rest) with rest.
  now rewrite hex4_hex_digits.
Qed.

Lemma scan_units_escape_char cp rest :
  scan_units (escape_char cp ++ rest)
  = foldr scanned (scan_units rest) (utf16 cp).
Proof.
  destruct (escape_char_shape cp) as [c Hin Hc Hu Hn | Hr H34 H92 | Hr Hlt | Hge].
  - rewrite !string_app_cons, scan_units_cons.
    change (N_of_ascii backslash) with 92%N. cbn [N.eqb Pos.eqb].
    apply N.eqb_neq in Hn. rewrite Hn, Hu.
    unfold utf16. replace (cp <? 65536)%N with true; [reflexivity|].
    symmetry. apply N.ltb_lt. simpl in Hin. lia.
  - rewrite string_app_cons, scan_units_cons.
    rewrite N_of_ascii_of_N by lia.
    apply N.eqb_neq in H34, H92. rewrite H34, H92.
    unfold utf16. replace (cp <? 65536)%N with true; [reflexivity|].
    symmetry. apply N.ltb_lt. lia.
  - rewrite scan_units_u_escape by assumption.
    unfold utf16. apply N.ltb_lt in Hlt. now rewrite Hlt.
  - rewrite string_app_assoc.
    rewrite scan_units_u_escape by div_lia.
    rewrite scan_units_u_escape by div_lia.
    unfold utf16. replace (cp <? 65536)%N with false; [reflexivity|].
    symmetry. apply N.ltb_ge. lia.
Qed.

Lemma foldr_scanned us l rest :
  foldr scanned (Some (l, rest)) us = Some ((us ++ l)%list, rest).
Proof. induction us as [|u us IH]; [reflexivity|]. simpl. now rewrite IH. Qed.

Lemma scan_units_escape_code_points l rest :
  scan_units (escape_code_points l ++ String dquote rest)
  = Some (flat_map utf16 l, rest).
Proof.
  induction l as [|cp l IH]; [reflexivity|].
  cbn [escape_code_points flat_map].
  rewrite string_app_assoc, scan_units_escape_char, IH.
  apply foldr_scanned.
Qed.

(** UTF-16 is read back in one way when there are no lone surrogates. *)
Lemma utf16_inj l1 l2 :
  forallb (fun cp => negb (is_surrogate cp)) l1 = true ->
  forallb (fun cp => negb (is_surrogate cp)) l2 = true ->
  Forall (fun cp => (cp < 1114112)%N) l1 ->
  Forall (fun cp => (cp < 1114112)%N) l2 ->
  flat_map utf16 l1 = flat_map utf16 l2 -> l1 = l2.
Proof.
  revert l2. induction l1 as [|a l1 IH]; intros [|b l2] Hs1 Hs2 Hb1 Hb2 H.
  - reflexivity.
  - exfalso. cbn [flat_map] in H. unfold utf16 in H.
    destruct (b <? 65536)%N; discriminate.
  - exfalso. cbn [flat_map] in H. unfold utf16 in H.
    destruct (a <? 65536)%N; discriminate.
  - cbn [forallb] in Hs1, Hs2.
    apply andb_true_iff in Hs1 as [Ha Hs1], Hs2 as [Hb Hs2].
    apply Forall_cons in Hb1 as [Ba Hb1], Hb2 as [Bb Hb2].
    unfold is_surrogate in Ha, Hb.
    apply negb_true_iff, andb_false_iff in Ha, Hb.
    rewrite N.leb_gt, N.ltb_ge in Ha, Hb.
    cbn [flat_map] in H. unfold utf16 in H.
    destruct (N.ltb_spec a 65536), (N.ltb_spec b 65536);
      cbn [app] in H.
    + injection H as -> H. f_equal. now apply IH.
    + exfalso. injection H as H _. div_lia.
    + exfalso. injection H as H _. div_lia.
    + injection H as Hhi Hlo H. f_equal; [div_lia|now apply IH].
Qed.

(** *** The code points of a string, one sequence at a time *)

Lemma code_points_cons b0 s1 :
  code_points (String b0 s1) =
    if (N_of_ascii b0 <? 128)%N then N_of_ascii b0 :: code_points s1
    else
      match s1 with
      | String b1 s2 =>
          if is_sequence2 b0 b1 then code_point2 b0 b1 :: code_points s2
          else
            match s2 with
            | String b2 s3 =>
                if is_sequence3 b0 b1 b2
                then code_point3 b0 b1 b2 :: code_points s3
                else
                  match s3 with
                  | String b3 s4 =>
                      if is_sequence4 b0 b1 b2 b3
                      then code_point4 b0 b1 b2 b3 :: code_points s4
                      else 65533%N :: code_points s1
                  | EmptyString => 65533%N :: code_points s1
                  end
            | EmptyString => 65533%N :: code_points s1
            end
      | EmptyString => 65533%N :: code_points s1
      end.
Proof. reflexivity. Qed.

Lemma is_continuation_bits b :
  is_continuation b = true -> (continuation_bits b < 64)%N.
Proof.
  unfold is_continuation, continuation_bits.
  rewrite andb_true_iff, N.leb_le, N.ltb_lt. lia.
Qed.

(** A string starts with a single byte below 128, which is its first code
    point, or with at most four bytes read as a code point from 128 on. *)
Lemma code_points_step b0 s1 :
  exists cp rest k,
    code_points (String b0 s1) = cp :: code_points rest /\
    String.length (String b0 s1) = (k + String.length rest)%nat /\
    (cp < 1114112)%N /\
    ((k = 1%nat /\ rest = s1 /\ cp = N_of_ascii b0 /\ (cp < 128)%N) \/
     ((128 <= cp)%N /\ (1 <= k <= 4)%nat)).
Proof.
  rewrite code_points_cons.
  assert (Hstray : exists cp rest k,
            65533%N :: code_points s1 = cp :: code_points rest /\
            String.length (String b0 s1) = (k + String.length rest)%nat /\
            (cp < 1114112)%N /\
            ((k = 1%nat /\ rest = s1 /\ cp = N_of_ascii b0 /\ (cp < 128)%N) \/
             ((128 <= cp)%N /\ (1 <= k <= 4)%nat))).
  { exists 65533%N, s1, 1%nat.
    split; [reflexivity|]. split; [reflexivity|]. split; [lia|]. right. lia. }
  destruct (N.ltb_spec (N_of_ascii b0) 128) as [Hlt|Hge].
  { exists (N_of_ascii b0), s1, 1%nat.
    split; [reflexivity|]. split; [reflexivity|]. split; [lia|]. left. auto. }
  destruct s1 as [|b1 s2]; [exact Hstray|].
  destruct (is_sequence2 b0 b1) eqn:H2.
  { exists (code_point2 b0 b1), s2, 2%nat.
    unfold is_sequence2 in H2.
    rewrite !andb_true_iff, N.leb_le, N.ltb_lt in H2.
    destruct H2 as [[? ?] C1%is_continuation_bits].
    unfold code_point2.
    split; [reflexivity|]. split; [reflexivity|]. split; [lia|]. right. lia. }
  destruct s2 as [|b2 s3]; [exact Hstray|].
  destruct (is_sequence3 b0 b1 b2) eqn:H3.
  { exists (code_point3 b0 b1 b2), s3, 3%nat.
    unfold is_sequence3 in H3.
    rewrite !andb_true_iff, !N.leb_le, N.ltb_lt in H3.
    destruct H3 as [[[[? ?] C1%is_continuation_bits] C2%is_continuation_bits] ?].
    unfold code_point3 in *.
    split; [reflexivity|]. split; [reflexivity|]. split; [lia|]. right. lia. }
  destruct s3 as [|b3 s4]; [exact Hstray|].
  destruct (is_sequence4 b0 b1 b2 b3) eqn:H4; [|exact Hstray].
  exists (code_point4 b0 b1 b2 b3), s4, 4%nat.
  unfold is_sequence4 in H4.
  rewrite !andb_true_iff, !N.leb_le, !N.ltb_lt in H4.
  destruct H4 as [_ [? ?]].
  split; [reflexivity|]. split; [reflexivity|]. split; [lia|]. right. lia.
Qed.

Lemma code_points_bounded s :
  Forall (fun cp => (cp < 1114112)%N) (code_points s).
Proof.
  remember (String.length s) as n eqn:Hn.
  revert s Hn. induction (lt_wf n) as [n _ IH]. intros [|b0 s1] Hn.
  - constructor.
  - destruct (code_points_step b0 s1) as (cp & rest & k & -> & Hlen & Hcp & Hk).
    constructor; [exact Hcp|].
    apply (IH (String.length rest)); [|reflexivity].
    rewrite Hn, Hlen. destruct Hk as [[-> _]|[_ ?]]; lia.
Qed.

(** *** Lengths, and the characters written *)

Lemma escape_shape_length cp e :
  escape_shape cp e ->
  (1 <= String.length e <= 12)%nat /\
  ((128 <= cp)%N -> (6 <= String.length e)%nat) /\
  (String.length e = 1%nat -> (32 <= cp <= 126)%N /\ cp <> 34%N /\ cp <> 92%N).
Proof.
  intros [c Hin _ _ _ | Hr H34 H92 | Hr Hlt | Hge].
  - cbn [String.length]. simpl in Hin. lia.
  - cbn [String.length]. lia.
  - rewrite u_escape_length. lia.
  - rewrite string_app_length, !u_escape_length. lia.
Qed.

Lemma escape_shape_printable cp e :
  escape_shape cp e -> all_chars is_printable e = true.
Proof.
  intros [c Hin Hc _ _ | Hr H34 H92 | Hr Hlt | Hge].
  - cbn [all_chars]. now rewrite Hc.
  - cbn [all_chars]. unfold is_printable. rewrite N_of_ascii_of_N by lia.
    rewrite andb_true_r, andb_true_iff, !N.leb_le. lia.
  - apply u_escape_printable.
  - now rewrite all_chars_app, !u_escape_printable.
Qed.

Lemma escape_code_points_printable l :
  all_chars is_printable (escape_code_points l) = true.
Proof.
  induction l as [|cp l IH]; [reflexivity|].
  cbn [escape_code_points].
  now rewrite all_chars_app, (escape_shape_printable _ _ (escape_char_shape cp)), IH.
Qed.

Lemma escape_code_points_length l :
  (length l <= String.length (escape_code_points l) <= 12 * length l)%nat.
Proof.
  induction l as [|cp l IH]; [simpl; lia|].
  cbn [escape_code_points length]. rewrite string_app_length.
  destruct (escape_shape_length _ _ (escape_char_shape cp)) as [H _]. lia.
Qed.

Lemma is_plain_spec b :
  is_plain b = true <->
  (32 <= N_of_ascii b <= 126)%N /\ N_of_ascii b <> 34%N /\ N_of_ascii b <> 92%N.
Proof.
  unfold is_plain, is_printable.
  rewrite !andb_true_iff, !negb_true_iff, !N.leb_le, !N.eqb_neq. tauto.
Qed.

(** The escaped form is no shorter than the string in bytes, and as long
    only when every byte is a plain character. *)
Lemma escape_chars_bytes s :
  (String.length s <= String.length (escape_chars s))%nat /\
  (String.length (escape_chars s) = String.length s ->
   all_chars is_plain s = true).
Proof.
  remember (String.length s) as n eqn:Hn.
  revert s Hn. induction (lt_wf n) as [n _ IH]. intros [|b0 s1] Hn.
  - subst n. split; [simpl; lia|reflexivity].
  - destruct (code_points_step b0 s1) as (cp & rest & k & Hcp & Hlen & _ & Hk).
    unfold escape_chars. rewrite Hcp. cbn [escape_code_points].
    rewrite string_app_length. fold (escape_chars rest).
    destruct (escape_shape_length _ _ (escape_char_shape cp)) as (H1 & H6 & Hp).
    assert (Hrest : (String.length rest < n)%nat).
    { rewrite Hn, Hlen. destruct Hk as [[-> _]|[_ ?]]; lia. }
    destruct (IH _ Hrest rest eq_refl) as [Hle Heq].
    rewrite Hn, Hlen.
    destruct Hk as [(-> & -> & Hb & _)|[Hhigh Hk]].
    + split; [lia|]. intros H. cbn [all_chars].
      rewrite Heq by lia. rewrite andb_true_r.
      apply is_plain_spec. rewrite <- Hb. apply Hp. lia.
    + specialize (H6 Hhigh). split; [lia|]. intros H. exfalso. lia.
Qed.

Lemma escape_char_plain b :
  is_plain b = true -> escape_char (N_of_ascii b) = String b EmptyString.
Proof.
  intros H. apply is_plain_spec in H as (Hr & H34 & H92).
  destruct (escape_char_shape (N_of_ascii b)) as [c Hin _ _ _ | _ _ _ | [?|?] _ | ?];
    [simpl in Hin; lia | | lia | lia |].
  - now rewrite ascii_N_embedding.
  - pose proof (N_ascii_bounded b). lia.
Qed.

Lemma escape_chars_plain s :
  all_chars is_plain s = true -> escape_chars s = s.
Proof.
  induction s as [|b0 s1 IH]; [reflexivity|].
  cbn [all_chars]. rewrite andb_true_iff. intros [Hb Hs].
  unfold escape_chars. rewrite code_points_cons.
  replace (N_of_ascii b0 <? 128)%N with true.
  - cbn [escape_code_points]. rewrite (escape_char_plain b0 Hb).
    fold (escape_chars s1). now rewrite (IH Hs).
  - symmetry. apply N.ltb_lt. apply is_plain_spec in Hb. lia.
Qed.

Lemma json_dumps_q q :
  json_dumps [("q", q)] =
  String "{" (String dquote (String "q" (String dquote (String ":" (String " "
    (String dquote (escape_chars q ++ String dquote "}"))))))).
Proof.
  transitivity
    (String "{" (String dquote (String "q" (String dquote (String ":" (String " "
       (String dquote ((escape_chars q ++ String dquote "") ++ "}"))))))));
    [reflexivity|].
  now rewrite string_app_assoc.
Qed.

(** Two texts with the same payload are the same text. *)
Lemma json_dumps_q_inj q1 q2 :
  is_text q1 -> is_text q2 ->
  json_dumps [("q", q1)] = json_dumps [("q", q2)] -> q1 = q2.
Proof.
  intros [Hu1 Hs1] [Hu2 Hs2]. rewrite !json_dumps_q. intros H.
  injection H as H. apply (f_equal scan_units) in H.
  unfold escape_chars in H. rewrite !scan_units_escape_code_points in H.
  injection H as H.
  apply utf16_inj in H; auto using code_points_bounded.
  rewrite <- Hu1, <- Hu2. now rewrite H.
Qed.

Lemma len_printable s :
  all_chars is_printable s = true -> len s = String.length s.
Proof.
  unfold len. induction s as [|b0 s1 IH]; [reflexivity|].
  cbn [all_chars]. rewrite andb_true_iff. intros [Hb Hs].
  rewrite code_points_cons. replace (N_of_ascii b0 <? 128)%N with true.
  - cbn [length String.length]. now rewrite (IH Hs).
  - symmetry. apply N.ltb_lt. unfold is_printable in Hb.
    rewrite andb_true_iff, !N.leb_le in Hb. lia.
Qed.

Lemma json_dumps_q_printable q :
  all_chars is_printable (json_dumps [("q", q)]) = true.
Proof.
  rewrite json_dumps_q. cbn [all_chars]. unfold escape_chars.
  now rewrite all_chars_app, escape_code_points_printable.
Qed.

Lemma _get_search_results_world self q w :
  snd (_get_search_results self q w) = log_request (search_request w q) w.
Proof. now rewrite _get_search_results_eq. Qed.

(** U+1F600 and its two surrogates on their own are written alike, as
    [json.dumps] writes them. *)
Example surrogates_collide :
  json_dumps [("q", "😀")] = json_dumps [("q", lone_surrogates)]
  /\ is_text "😀" /\ ~ is_text lone_surrogates.
Proof.
  split; [reflexivity|]. split; [split; reflexivity|].
  intros [_ H]. discriminate H.
Qed.

(** Two searches for texts, strings without surrogate code points, send the
    same payload only for the same text: the query can be read back from
    the payload. *)
Theorem search_payload_determines_query s1 s2 q1 q2 w1 w2 :
  is_text q1 -> is_text q2 ->
  exists r1 r2,
    snd (_get_search_results s1 q1 w1) = log_request r1 w1 /\
    snd (_get_search_results s2 q2 w2) = log_request r2 w2 /\
    (req_data r1 = req_data r2 <-> q1 = q2).
Proof.
  intros H1 H2. exists (search_request w1 q1), (search_request w2 q2).
  split; [apply _get_search_results_world|].
  split; [apply _get_search_results_world|].
  unfold search_request; cbn [req_data].
  split; [now apply json_dumps_q_inj | now intros ->].
Qed.

Lemma search_payload_determines_query_witness :
  is_text "café 😀" /\ is_text "cafe 😀" /\
  exists r1 r2,
    snd (_get_search_results serp_step "café 😀" timing_out)
      = log_request r1 timing_out /\
    snd (_get_search_results serp_step "cafe 😀" timing_out)
      = log_request r2 timing_out /\
    (req_data r1 = req_data r2 <-> "café 😀" = "cafe 😀").
Proof.
  assert (H1 : is_text "café 😀") by (split; reflexivity).
  assert (H2 : is_text "cafe 😀") by (split; reflexivity).
  split; [exact H1|]. split; [exact H2|].
  apply (search_payload_determines_query serp_step serp_step
           "café 😀" "cafe 😀" timing_out timing_out H1 H2).
Defined.

(** The payload of a search request is made of the characters [' '..'~']
    only, whatever the query: control characters, quotes, backslashes and
    every code point beyond ASCII leave the module escaped. *)
Theorem search_payload_is_printable_ascii self q w :
  exists r,
    snd (_get_search_results self q w) = log_request r w /\
    all_chars is_printable (req_data r) = true.
Proof.
  exists (search_request w q). split; [apply _get_search_results_world|].
  unfold search_request; cbn [req_data]. apply json_dumps_q_printable.
Qed.

(** A query is sent as it is, between the quotes of the one-key object,
    exactly when it is made of printable ASCII characters other than the
    quote and the backslash. *)
Theorem plain_query_sent_verbatim self q w :
  exists r,
    snd (_get_search_results self q w) = log_request r w /\
    (all_chars is_plain q = true <->
     req_data r =
       String "{" (String dquote (String "q" (String dquote (String ":"
         (String " " (String dquote (q ++ String dquote "}")))))))).
Proof.
  exists (search_request w q). split; [apply _get_search_results_world|].
  unfold search_request; cbn [req_data]. rewrite json_dumps_q. split.
  - intros H. now rewrite (escape_chars_plain q H).
  - intros [= H]. apply (escape_chars_bytes q).
    apply (f_equal String.length) in H.
    rewrite !string_app_length in H. lia.
Qed.

(** The payload has at least nine characters more than the query has code
    points, and at most twelve times as many characters plus nine. *)
Theorem search_payload_length self q w :
  exists r,
    snd (_get_search_results self q w) = log_request r w /\
    (len q + 9 <= len (req_data r) <= 12 * len q + 9)%nat.
Proof.
  exists (search_request w q). split; [apply _get_search_results_world|].
  unfold search_request; cbn [req_data].
  rewrite (len_printable _ (json_dumps_q_printable q)).
  rewrite json_dumps_q. cbn [String.length].
  rewrite string_app_length. cbn [String.length].
  pose proof (escape_code_points_length (code_points q)).
  unfold len, escape_chars. lia.
Qed.

(** ** The search call and the instrumented function *)

(** Without [SERPAPI_API_KEY] in the environment the search is attempted
    all the same: one request goes out with [None] as its key header, and
    the outcome of the call is that of the transport alone. *)
Theorem search_without_api_key self q w :
  environ w !! "SERPAPI_API_KEY" = None ->
  exists r,
    snd (_get_search_results self q w) = log_request r w /\
    req_headers r = [("X-API-KEY", None);
                     ("Content-Type", Some "application/json")] /\
    fst (_get_search_results self q w) =
      match transport w r with
      | Returns resp => Returns (text resp)
      | Raises e => Raises e
      end.
Proof.
  intros Hkey. exists (search_request w q).
  split; [apply _get_search_results_world|].
  split; [unfold search_request; cbn [req_headers]; now rewrite Hkey|].
  apply _get_search_results_fst.
Qed.

Lemma search_without_api_key_witness :
  environ timing_out !! "SERPAPI_API_KEY" = None /\
  exists r,
    snd (_get_search_results serp_step "Acme" timing_out)
      = log_request r timing_out /\
    req_headers r = [("X-API-KEY", None);
                     ("Content-Type", Some "application/json")] /\
    fst (_get_search_results serp_step "Acme" timing_out) =
      match transport timing_out r with
      | Returns resp => Returns (text resp)
      | Raises e => Raises e
      end.
Proof.
  split; [reflexivity|].
  apply (search_without_api_key serp_step "Acme" timing_out). reflexivity.
Defined.

(** When the transport raises, [_get_search_results] raises the same
    exception, after the request has been logged; [fn] then raises it too,
    whatever postprocess function is configured, which is not consulted. *)
Theorem transport_error_propagates self q w e :
  transport w (search_request w q) = Raises e ->
  _get_search_results self q w = (Raises e, log_request (search_request w q) w) /\
  _run_fn self q w = (Raises e, log_request (search_request w q) w).
Proof.
  intros He. split.
  - rewrite _get_search_results_eq. now rewrite He.
  - rewrite _run_fn_eq. unfold fn_outcome. now rewrite He.
Qed.

Lemma transport_error_propagates_witness :
  transport timing_out (search_request timing_out "Acme")
    = Raises (Exn Timeout "Read timed out.") /\
  _get_search_results (serp_step_with rejecting) "Acme" timing_out
    = (Raises (Exn Timeout "Read timed out."),
       log_request (search_request timing_out "Acme") timing_out) /\
  _run_fn (serp_step_with rejecting) "Acme" timing_out
    = (Raises (Exn Timeout "Read timed out."),
       log_request (search_request timing_out "Acme") timing_out).
Proof.
  split; [reflexivity|].
  apply (transport_error_propagates (serp_step_with rejecting) "Acme" timing_out).
  reflexivity.
Defined.

(** A call of [fn] sends exactly one request, the search for its argument,
    whether the search or the postprocess function returns or raises; it
    leaves the environment alone and does not read the performance counter. *)
Theorem fn_sends_one_request self x w :
  exists r,
    sent (snd (_run_fn self x w)) = (sent w ++ [r])%list /\
    req_data r = json_dumps [("q", x)] /\
    req_url r = "https://google.serper.dev/search" /\
    environ (snd (_run_fn self x w)) = environ w /\
    reads (snd (_run_fn self x w)) = reads w.
Proof.
  exists (search_request w x). rewrite _run_fn_eq. now simpl.
Qed.

(** [fn] returns [y] exactly when the transport returns a response and the
    postprocess function, or the identity in its absence, returns [y] on the
    text of that response; nothing else of the response, such as its status
    code, has a say. *)
Theorem fn_returns_iff self x w y :
  fst (_run_fn self x w) = Returns y <->
  exists resp,
    transport w (search_request w x) = Returns resp /\
    match postprocess self with
    | Some f => call f (text resp)
    | None => Returns (VStr (text resp))
    end = Returns y.
Proof.
  rewrite _run_fn_eq. cbn [fst]. unfold fn_outcome, _run_postprocess.
  destruct (transport w (search_request w x)) as [resp|e].
  - split.
    + intros H. exists resp. split; [reflexivity|].
      now destruct (postprocess self).
    + intros (resp' & [= <-] & H). now destruct (postprocess self).
  - split; [discriminate|]. now intros (resp' & H & _).
Qed.

(** ** The description of a step, over any base class *)

Lemma get_params_eq sgp self w base w1 pn ppl :
  sgp (super self) w = (Returns base, w1) ->
  __name__ (prompt self) = Some pn ->
  postprocess_label self = Some ppl ->
  get_params sgp self w =
    (Returns (<["postprocess" := Data ppl]> (<["prompt" := Data (VStr pn)]> base)),
     w1).
Proof.
  intros Hbase Hpn Hppl. unfold get_params.
  rewrite (bind_returns _ _ _ _ _ Hbase).
  rewrite (bind_returns _ _ _ _ _ (getattr___name___some _ _ w1 Hpn)).
  unfold postprocess_label in Hppl.
  destruct (postprocess self) as [f|].
  - destruct (__name__ f) as [n|] eqn:Hn; [|discriminate].
    injection Hppl as <-.
    unfold mbind at 1, py_bind at 1.
    now rewrite (bind_returns _ _ _ _ _ (getattr___name___some _ _ w1 Hn)).
  - now injection Hppl as <-.
Qed.

(** The entries [prompt] and [postprocess] of the description are those of
    this class even when the base class describes fields of these names;
    every other entry of the base class is kept as it is, and no key is
    added besides the two. The world is as the base class left it. *)
Theorem get_params_extends_base sgp self w base w1 pn ppl :
  sgp (super self) w = (Returns base, w1) ->
  __name__ (prompt self) = Some pn ->
  postprocess_label self = Some ppl ->
  exists m : gmap string object,
    get_params sgp self w = (Returns m, w1) /\
    m !! "prompt" = Some (Data (VStr pn)) /\
    m !! "postprocess" = Some (Data ppl) /\
    (forall k, k <> "prompt" -> k <> "postprocess" -> m !! k = base !! k) /\
    dom m = dom base ∪ {[ "prompt"; "postprocess" ]}.
Proof.
  intros Hbase Hpn Hppl. eexists.
  split; [apply (get_params_eq sgp self w base w1 pn ppl Hbase Hpn Hppl)|].
  split; [now rewrite lookup_insert_ne, lookup_insert_eq|].
  split; [now rewrite lookup_insert_eq|].
  split.
  - intros k Hk1 Hk2. now rewrite !lookup_insert_ne.
  - rewrite !dom_insert_L. apply set_eq. intros k.
    rewrite !elem_of_union, !elem_of_singleton. tauto.
Qed.

Lemma get_params_extends_base_witness :
  describing_prompt (super (serp_step_with rejecting)) timing_out
    = (Returns {[ "name" := Data (VStr "serp"); "prompt" := Data VNone ]},
       timing_out) /\
  __name__ (prompt (serp_step_with rejecting)) = Some "<lambda>" /\
  postprocess_label (serp_step_with rejecting) = Some (VStr "rejecting") /\
  exists m : gmap string object,
    get_params describing_prompt (serp_step_with rejecting) timing_out
      = (Returns m, timing_out) /\
    m !! "prompt" = Some (Data (VStr "<lambda>")) /\
    m !! "postprocess" = Some (Data (VStr "rejecting")) /\
    (forall k, k <> "prompt" -> k <> "postprocess" ->
       m !! k = ({[ "name" := Data (VStr "serp");
                    "prompt" := Data VNone ]} : gmap string object) !! k) /\
    dom m = dom ({[ "name" := Data (VStr "serp");
                    "prompt" := Data VNone ]} : gmap string object)
              ∪ {[ "prompt"; "postprocess" ]}.
Proof.
  split; [reflexivity|]. split; [reflexivity|]. split; [reflexivity|].
  apply (get_params_extends_base describing_prompt (serp_step_with rejecting)
           timing_out
           {[ "name" := Data (VStr "serp"); "prompt" := Data VNone ]}
           timing_out "<lambda>" (VStr "rejecting")); reflexivity.
Defined.

(** [get_params] returns a description exactly when the base class returns
    one, the prompt has a [__name__], and the postprocess function, if there
    is one, has a [__name__]; in every other case it raises. *)
Theorem get_params_returns_iff sgp self w :
  (exists m w', get_params sgp self w = (Returns m, w')) <->
  (exists base w', sgp (super self) w = (Returns base, w')) /\
  is_Some (__name__ (prompt self)) /\
  (forall f, postprocess self = Some f -> is_Some (__name__ f)).
Proof.
  split.
  - intros (m & w' & H). unfold get_params in H.
    apply bind_inv in H as (base & w1 & Hbase & H).
    apply bind_inv in H as (pn & w2 & Hpn & H).
    apply bind_inv in H as (pp & w3 & Hpp & _).
    split; [now exists base, w1|].
    unfold getattr___name__ in Hpn.
    destruct (__name__ (prompt self)) as [n|]; [|discriminate].
    split; [now exists n|].
    intros f Hf. rewrite Hf in Hpp.
    apply bind_inv in Hpp as (n' & w4 & Hn' & _).
    unfold getattr___name__ in Hn'.
    destruct (__name__ f) as [n0|]; [now exists n0 | discriminate].
  - intros ((base & w1 & Hbase) & [pn Hpn] & Hpost).
    assert (Hl : exists ppl, postprocess_label self = Some ppl).
    { unfold postprocess_label. destruct (postprocess self) as [f|].
      - destruct (Hpost f eq_refl) as [n ->]. now exists (VStr n).
      - now exists VNone. }
    destruct Hl as [ppl Hppl]. eexists _, w1.
    apply (get_params_eq sgp self w base w1 pn ppl Hbase Hpn Hppl).
Qed.

(** ** Exceptions out of [_run] *)

(** [_run] raises exactly when the prompt raises, the world then being
    untouched, or the instrumentation wrapper raises; the exception is the
    one raised there. [_run] raises nothing of its own. *)
Theorem run_raises_iff ws self r w e w' :
  _run ws self r w = (Raises e, w') <->
  (call (prompt self) r = Raises e /\ w' = w) \/
  (exists x, call (prompt self) r = Returns x /\
             ws (_run_fn self) x w = (Raises e, w')).
Proof.
  unfold _run, mbind, py_bind, lift.
  destruct (call (prompt self) r) as [x|e0].
  - destruct (ws (_run_fn self) x w) as [[[res stats]|e1] w1] eqn:Hws.
    + split; [discriminate|].
      intros [[H _]|(x' & [= <-] & H)]; [discriminate|].
      rewrite Hws in H. discriminate.
    + split.
      * intros [= <- <-]. right. now exists x.
      * intros [[H _]|(x' & [= <-] & H)]; [discriminate|].
        rewrite Hws in H. now injection H as <- <-.
  - split.
    + intros [= <- <-]. now left.
    + intros [[[= <-] ->]|(x' & H & _)]; [reflexivity|discriminate].
Qed.

(** ** Construction, then description *)

(** A step built by [__init__] describes itself by the names of the very
    callables it was given: the prompt under [prompt], and under
    [postprocess] the name of the postprocess function or [None] when none
    was passed; construction changes the world only as the base
    initialiser does. *)
Theorem init_then_get_params si sgp p post nm w sup w1 base w2 pn :
  si nm w = (Returns sup, w1) ->
  sgp sup w1 = (Returns base, w2) ->
  __name__ p = Some pn ->
  (forall f, post = Some f -> is_Some (__name__ f)) ->
  exists m : gmap string object,
    (__init__ si p post nm ≫= get_params sgp) w = (Returns m, w2) /\
    __init__ si p post nm w = (Returns (Build_SERPEnrichmentStep sup p post), w1) /\
    m !! "prompt" = Some (Data (VStr pn)) /\
    m !! "postprocess" =
      Some (Data (match post with
                  | Some f => default VNone (VStr <$> __name__ f)
                  | None => VNone
                  end)).
Proof.
  intros Hsi Hbase Hpn Hpost.
  assert (Hinit : __init__ si p post nm w
                  = (Returns (Build_SERPEnrichmentStep sup p post), w1)).
  { unfold __init__. now rewrite (bind_returns _ _ _ _ _ Hsi). }
  set (ppl := match post with
              | Some f => default VNone (VStr <$> __name__ f)
              | None => VNone
              end).
  assert (Hppl : postprocess_label (Build_SERPEnrichmentStep sup p post) = Some ppl).
  { unfold postprocess_label, ppl; simpl. destruct post as [f|]; [|reflexivity].
    now destruct (Hpost f eq_refl) as [n ->]. }
  eexists. rewrite (bind_returns _ _ _ _ _ Hinit).
  rewrite (get_params_eq sgp (Build_SERPEnrichmentStep sup p post)
             w1 base w2 pn ppl Hbase Hpn Hppl).
  split; [reflexivity|]. split; [exact Hinit|].
  split; [now rewrite lookup_insert_ne, lookup_insert_eq|].
  now rewrite lookup_insert_eq.
Qed.

Lemma init_then_get_params_witness :
  naming_init None timing_out
    = (Returns {| step.name := "SERPEnrichmentStep" |}, timing_out) /\
  step.get_params {| step.name := "SERPEnrichmentStep" |} timing_out
    = (Returns {[ "name" := Data (VStr "SERPEnrichmentStep") ]}, timing_out) /\
  __name__ headquarters = Some "<lambda>" /\
  exists m : gmap string object,
    (__init__ naming_init headquarters None None ≫= get_params step.get_params)
      timing_out = (Returns m, timing_out) /\
    __init__ naming_init headquarters None None timing_out
      = (Returns (Build_SERPEnrichmentStep
                    {| step.name := "SERPEnrichmentStep" |} headquarters None),
         timing_out) /\
    m !! "prompt" = Some (Data (VStr "<lambda>")) /\
    m !! "postprocess" = Some (Data VNone).
Proof.
  split; [reflexivity|]. split; [reflexivity|]. split; [reflexivity|].
  apply (init_then_get_params naming_init step.get_params headquarters None None
           timing_out {| step.name := "SERPEnrichmentStep" |} timing_out
           {[ "name" := Data (VStr "SERPEnrichmentStep") ]} timing_out "<lambda>");
    [reflexivity | reflexivity | reflexivity | discriminate].
Defined.

(** ** What a description and a run depend on *)

(** [get_params] looks at the names of the configured callables and at
    nothing else of them: two steps over the same base part whose prompts
    carry the same [__name__], and whose postprocess functions are both
    absent or carry the same [__name__], are described alike, whatever
    their callables compute. *)
Theorem get_params_reads_names_only sgp self1 self2 w :
  super self1 = super self2 ->
  __name__ (prompt self1) = __name__ (prompt self2) ->
  (__name__ <$> postprocess self1) = (__name__ <$> postprocess self2) ->
  get_params sgp self1 w = get_params sgp self2 w.
Proof.
  intros Hsup Hp Hpp. unfold get_params, getattr___name__.
  rewrite Hsup, Hp.
  destruct (postprocess self1) as [f1|], (postprocess self2) as [f2|];
    try discriminate; [|reflexivity].
  injection Hpp as ->. reflexivity.
Qed.

Lemma get_params_reads_names_only_witness :
  super (serp_step_with rejecting) = super lookalike_step /\
  __name__ (prompt (serp_step_with rejecting)) = __name__ (prompt lookalike_step) /\
  (__name__ <$> postprocess (serp_step_with rejecting))
    = (__name__ <$> postprocess lookalike_step) /\
  get_params step.get_params (serp_step_with rejecting) timing_out =
  get_params step.get_params lookalike_step timing_out.
Proof.
  split; [reflexivity|]. split; [reflexivity|]. split; [reflexivity|].
  apply (get_params_reads_names_only step.get_params
           (serp_step_with rejecting) lookalike_step timing_out); reflexivity.
Defined.

(** [_run] depends on a step through its name, what its prompt computes and
    what its postprocess function, or the identity in its absence,
    computes: two steps that agree on these run alike on every row, in
    every world and under every instrumentation wrapper, whatever the
    [__name__]s of their callables. *)
Theorem run_extensional ws self1 self2 :
  name self1 = name self2 ->
  (forall r, call (prompt self1) r = call (prompt self2) r) ->
  (forall s, call (_run_postprocess self1) s = call (_run_postprocess self2) s) ->
  forall r w, _run ws self1 r w = _run ws self2 r w.
Proof.
  intros Hname Hprompt Hpost r w. unfold _run.
  rewrite Hname, Hprompt.
  replace (_run_fn self2) with (_run_fn self1); [reflexivity|].
  apply functional_extensionality; intros x.
  apply functional_extensionality; intros w0.
  rewrite !_run_fn_eq. f_equal. unfold fn_outcome.
  destruct (transport w0 (search_request w0 x)) as [resp|e]; [|reflexivity].
  apply Hpost.
Qed.

Lemma run_extensional_witness :
  name serp_step = name partial_step /\
  (forall r, call (prompt serp_step) r = call (prompt partial_step) r) /\
  (forall s, call (_run_postprocess serp_step) s
             = call (_run_postprocess partial_step) s) /\
  forall r w,
    _run utils.with_statistics serp_step r w
    = _run utils.with_statistics partial_step r w.
Proof.
  split; [reflexivity|]. split; [reflexivity|]. split; [reflexivity|].
  apply (run_extensional utils.with_statistics serp_step partial_step);
    reflexivity.
Defined.
